(** * database-mcp: the SQL query validator and the pagination helper

    A shallow embedding of [mcp/sql_query_validation.go] and of
    [GetPaginationParams] from the pagination helpers, with the properties
    stated for them.

    Go strings are byte sequences: they are modelled by [string], whose
    characters ([ascii]) are the 256 byte values.  Go's [int] is modelled by
    [Z]; every counter below is bounded by the length of a string, so no
    wrap-around is involved, except in the pagination arithmetic where it is
    written out. *)

From Stdlib Require Import ZArith Lia Bool Ascii String.
From Stdlib Require Import Floats.SpecFloat.
From stdpp Require Import gmap strings.

Local Open Scope Z_scope.

(** ** Bytes *)

Definition code (c : ascii) : Z := Z.of_N (N_of_ascii c).

Definition inRange (lo hi : Z) (c : ascii) : bool :=
  (lo <=? code c) && (code c <=? hi).

Definition isByte (n : Z) (c : ascii) : bool := code c =? n.

(** ** The part of Go's [strings] package the validator calls *)

Module strings.

Definition len (s : string) : Z := Z.of_nat (String.length s).

(** [s[i:]] *)
Fixpoint sliceFrom (s : string) (i : nat) : string :=
  match i, s with
  | O, _ => s
  | S n, String _ t => sliceFrom t n
  | S _, EmptyString => EmptyString
  end.

Fixpoint HasPrefix (s prefix : string) : bool :=
  match prefix, s with
  | EmptyString, _ => true
  | String p prefix', String c s' => Ascii.eqb p c && HasPrefix s' prefix'
  | String _ _, EmptyString => false
  end.

Fixpoint Contains (s substr : string) : bool :=
  HasPrefix s substr ||
  match s with
  | String _ t => Contains t substr
  | EmptyString => false
  end.

(** [strings.Count]: the number of non-overlapping instances of a
    non-empty [substr]; [skip] bytes of the instance found last are still
    to be passed over. *)
Fixpoint countFrom (s substr : string) (skip : nat) : Z :=
  match s with
  | EmptyString => 0
  | String _ t =>
      match skip with
      | S n => countFrom t substr n
      | O =>
          if HasPrefix s substr
          then 1 + countFrom t substr (String.length substr - 1)
          else countFrom t substr O
      end
  end.

Definition Count (s substr : string) : Z := countFrom s substr O.

(** The ASCII white space of [strings.TrimSpace]:
    tab, line feed, vertical tab, form feed, carriage return, space. *)
Definition asciiSpace (c : ascii) : bool :=
  inRange 9 13 c || isByte 32 c.

(** [unicode.IsSpace] beyond ASCII, on the UTF-8 encoding:
    U+0085 and U+00A0 take two bytes, *)
Definition space2 (c d : ascii) : bool :=
  isByte 194 c && (isByte 133 d || isByte 160 d).

(** and U+1680, U+2000..U+200A, U+2028, U+2029, U+202F, U+205F and
    U+3000 take three. *)
Definition space3 (c d e : ascii) : bool :=
  (isByte 225 c && isByte 154 d && isByte 128 e)
  || (isByte 226 c && isByte 128 d
      && (inRange 128 138 e || isByte 168 e || isByte 169 e || isByte 175 e))
  || (isByte 226 c && isByte 129 d && isByte 159 e)
  || (isByte 227 c && isByte 128 d && isByte 128 e).

Fixpoint trimLeft (s : string) : string :=
  match s with
  | EmptyString => s
  | String c t =>
      if asciiSpace c then trimLeft t
      else match t with
           | String d t1 =>
               if space2 c d then trimLeft t1
               else match t1 with
                    | String e t2 => if space3 c d e then trimLeft t2 else s
                    | EmptyString => s
                    end
           | EmptyString => s
           end
  end.

(** The same from the end, on the reversed string: the last rune of a Go
    string is a white space exactly when the string ends with one of the
    encodings above. *)
Fixpoint trimLeftRev (s : string) : string :=
  match s with
  | EmptyString => s
  | String c t =>
      if asciiSpace c then trimLeftRev t
      else match t with
           | String d t1 =>
               if space2 d c then trimLeftRev t1
               else match t1 with
                    | String e t2 => if space3 e d c then trimLeftRev t2 else s
                    | EmptyString => s
                    end
           | EmptyString => s
           end
  end.

Definition trimRight (s : string) : string :=
  String.rev (trimLeftRev (String.rev s)).

Definition TrimSpace (s : string) : string := trimRight (trimLeft s).

Definition isASCII (s : string) : bool :=
  forallb (fun c => code c <? 128) (list_ascii_of_string s).

Definition upperByte (c : ascii) : ascii :=
  if inRange 97 122 c then ascii_of_N (N_of_ascii c - 32) else c.

Fixpoint mapBytes (f : ascii -> ascii) (s : string) : string :=
  match s with
  | EmptyString => EmptyString
  | String c t => String (f c) (mapBytes f t)
  end.

(** [strings.ToUpper] maps the bytes of an ASCII string; a string with a
    byte above 0x7F goes through the Unicode case tables of the Go
    runtime, which are no part of this repository: [unicodeUpper] stands
    for that path, and every statement below holds whatever it does. *)
Definition ToUpper (unicodeUpper : string -> string) (s : string) : string :=
  if isASCII s then mapBytes upperByte s else unicodeUpper s.

End strings.

(** ** The part of Go's [regexp] package the validator calls

    The patterns of the source are built from literals, byte classes and
    their repetitions, concatenation, alternation, one capture group and the
    ASCII word boundary.  Go's matching is leftmost-first: the match starts
    as early as possible and is the one a backtracking search finds first,
    which is what [run] computes.  Every class of the source is ASCII or the
    complement of an ASCII byte, so matching bytes and matching runes give
    the same extents. *)

Module regexp.

Inductive Regexp : Type :=
| Lit (s : string)                          (* the bytes of s *)
| Class (p : ascii -> bool)                 (* one byte of a class *)
| Star (greedy : bool) (p : ascii -> bool)  (* x* and x*? of a class *)
| Cat (r1 r2 : Regexp)
| Alt (r1 r2 : Regexp)
| Group (r : Regexp)                        (* the capture group $1 *)
| WordBoundary.                             (* \b *)

Definition Plus (p : ascii -> bool) : Regexp := Cat (Class p) (Star true p).

(** The classes of the source. *)
Definition space (c : ascii) : bool :=      (* \s is [\t\n\f\r ] *)
  isByte 9 c || isByte 10 c || isByte 12 c || isByte 13 c || isByte 32 c.
Definition word (c : ascii) : bool :=       (* \w is [0-9A-Za-z_] *)
  inRange 48 57 c || inRange 65 90 c || inRange 97 122 c || isByte 95 c.
Definition notByte (n : Z) (c : ascii) : bool := negb (isByte n c).
Definition dot : ascii -> bool := notByte 10. (* . without the s flag *)

Section Matching.
Context {R : Type}.

Fixpoint lit (l s : string) (prev : option ascii)
    (k : option ascii -> string -> option R) : option R :=
  match l with
  | EmptyString => k prev s
  | String c l' =>
      match s with
      | String d s' => if Ascii.eqb c d then lit l' s' (Some d) k else None
      | EmptyString => None
      end
  end.

Fixpoint star (greedy : bool) (p : ascii -> bool)
    (k : option ascii -> string -> option R)
    (prev : option ascii) (s : string) : option R :=
  match s with
  | String c t =>
      if p c then
        if greedy then
          match star greedy p k (Some c) t with
          | Some r => Some r
          | None => k prev s
          end
        else
          match k prev s with
          | Some r => Some r
          | None => star greedy p k (Some c) t
          end
      else k prev s
  | EmptyString => k prev s
  end.

Definition isWordBefore (prev : option ascii) : bool :=
  match prev with Some c => word c | None => false end.
Definition isWordAfter (s : string) : bool :=
  match s with String c _ => word c | EmptyString => false end.

(** [run r prev s g k]: match [r] at the front of [s], the byte before
    being [prev] and the text of group 1 so far [g]; [k] receives the
    position after the match. *)
Fixpoint run (r : Regexp) (prev : option ascii) (s : string) (g : string)
    (k : option ascii -> string -> string -> option R) : option R :=
  match r with
  | Lit l => lit l s prev (fun prev' s' => k prev' s' g)
  | Class p =>
      match s with
      | String c t => if p c then k (Some c) t g else None
      | EmptyString => None
      end
  | Star greedy p => star greedy p (fun prev' s' => k prev' s' g) prev s
  | Cat r1 r2 => run r1 prev s g (fun prev' s' g' => run r2 prev' s' g' k)
  | Alt r1 r2 =>
      match run r1 prev s g k with
      | Some x => Some x
      | None => run r2 prev s g k
      end
  | Group r1 =>
      run r1 prev s g
        (fun prev' s' _ =>
           k prev' s' (String.substring 0 (String.length s - String.length s') s))
  | WordBoundary =>
      if xorb (isWordBefore prev) (isWordAfter s) then k prev s g else None
  end.
End Matching.

(** A match at the front of [s]: its length and the text of group 1. *)
Definition matchAt (r : Regexp) (prev : option ascii) (s : string)
    : option (nat * string) :=
  run r prev s EmptyString
    (fun _ s' g => Some ((String.length s - String.length s')%nat, g)).

(** [MatchString]: is there a match anywhere in [s]? *)
Fixpoint search (r : Regexp) (prev : option ascii) (s : string) : bool :=
  match matchAt r prev s with
  | Some _ => true
  | None =>
      match s with
      | String c t => search r (Some c) t
      | EmptyString => false
      end
  end.

Definition MatchString (r : Regexp) (s : string) : bool := search r None s.

(** The successive non-overlapping matches of [r] in [s], with the bytes
    between them. *)
Inductive piece : Type :=
| Gap (c : ascii)
| Hit (whole group1 : string).

(** [skip] bytes of the last match are still to be passed over; [adj]
    says that a match ended at this very position, where Go accepts no
    empty match. *)
Fixpoint scan (r : Regexp) (prev : option ascii) (s : string)
    (skip : nat) (adj : bool) : list piece :=
  match skip with
  | S n =>
      match s with
      | String c t => scan r (Some c) t n true
      | EmptyString => []
      end
  | O =>
      match matchAt r prev s with
      | Some (S n, g) =>
          Hit (String.substring 0 (S n) s) g ::
          match s with
          | String c t => scan r (Some c) t n true
          | EmptyString => []
          end
      | Some (O, g) =>
          (if adj then [] else [Hit EmptyString g]) ++
          match s with
          | String c t => Gap c :: scan r (Some c) t O false
          | EmptyString => []
          end
      | None =>
          match s with
          | String c t => Gap c :: scan r (Some c) t O false
          | EmptyString => []
          end
      end
  end.

Definition pieces (r : Regexp) (s : string) : list piece :=
  scan r None s O false.

Definition wholeOf (p : piece) : option string :=
  match p with Hit whole _ => Some whole | Gap _ => None end.

(** [FindAllString(s, -1)] *)
Definition FindAllString (r : Regexp) (s : string) : list string :=
  omap wholeOf (pieces r s).

(** A replacement template: the source uses plain text and [$1]. *)
Inductive template : Type :=
| Text (s : string)
| Group1.

Definition expand (repl : template) (g : string) : string :=
  match repl with Text s => s | Group1 => g end.

Fixpoint glue (repl : template) (ps : list piece) : string :=
  match ps with
  | [] => EmptyString
  | Gap c :: ps' => String c (glue repl ps')
  | Hit _ g :: ps' => expand repl g +:+ glue repl ps'
  end.

Definition ReplaceAllString (r : Regexp) (src : string) (repl : template)
    : string :=
  glue repl (pieces r src).

End regexp.

Import strings regexp.

(** ** mcp/sql_query_validation.go *)

(** Query validation constants *)
Definition MaxQueryLength : Z := 10000.
Definition MaxSubqueryCount : Z := 10.
Definition MaxUnionCount : Z := 5.
Definition MaxParenthesesDepth : Z := 20.
Definition MaxHexEncodingCount : Z := 3.
Definition MaxCharFunctionCount : Z := 10.

(** Precompiled regexes *)

(* --[^\n]* *)
Definition reLineComments : Regexp := Cat (Lit "--") (Star true (notByte 10)).
(* /\*.*?\*/ *)
Definition reBlockComments : Regexp :=
  Cat (Lit "/*") (Cat (Star false dot) (Lit "*/")).
(* \s+ *)
Definition reMultipleSpaces : Regexp := Plus space.
(* \s*([(),;])\s* *)
Definition parenOrComma (c : ascii) : bool :=
  Ascii.eqb c "(" || Ascii.eqb c ")" || Ascii.eqb c "," || Ascii.eqb c ";".
Definition reParensAndCommas : Regexp :=
  Cat (Star true space) (Cat (Group (Class parenOrComma)) (Star true space)).
(* '[^']*' *)
Definition reSingleQuotes : Regexp :=
  Cat (Lit "'") (Cat (Star true (notByte 39)) (Lit "'")).
(* the same between double quotes, the double quote being byte 34 *)
Definition dquote : string := String "034" EmptyString.
Definition reDoubleQuotes : Regexp :=
  Cat (Lit dquote) (Cat (Star true (notByte 34)) (Lit dquote)).
(* \[[^\]]*\] *)
Definition reSquareBrackets : Regexp :=
  Cat (Lit "[") (Cat (Star true (notByte 93)) (Lit "]")).
(* SELECT\s+.*\s+INTO\s+ *)
Definition reSelectInto : Regexp :=
  Cat (Lit "SELECT") (Cat (Plus space) (Cat (Star true dot)
    (Cat (Plus space) (Cat (Lit "INTO") (Plus space))))).
(* 0X[0-9A-F]+ *)
Definition hexDigit (c : ascii) : bool := inRange 48 57 c || inRange 65 70 c.
Definition reHexPattern : Regexp := Cat (Lit "0X") (Plus hexDigit).
(* (CHAR|NCHAR)\s*\( *)
Definition reCharNCharPattern : Regexp :=
  Cat (Group (Alt (Lit "CHAR") (Lit "NCHAR"))) (Cat (Star true space) (Lit "(")).

(** Structure for SQL analysis *)
Record SQLValidator : Type := {
  query : string;
  normalized : string
}.

(** The errors [Validate] returns, one constructor for each message of the
    source; [Error] gives the message. *)
Inductive reason : Type :=
| EmptyQuery
| QueryTooLong
| NotReadOnly
| ForbiddenCommand (cmd : string)
| TransactionCommand (cmd : string)
| AdministrativeCommand (cmd : string)
| SecurityCommand (cmd : string)
| ForbiddenFunction (fn : string)
| MultipleStatements        (* from the statement scanner *)
| StackedStatements         (* from the semicolon count of step 15 *)
| SelectInto
| TooManyUnions
| SuspiciousControlChar
| ExcessiveEncoding
| ExcessiveObfuscation
| TimingFunction (fn : string)
| TooManySubqueries
| UnbalancedParentheses
| ExcessiveNesting.

Definition Error (r : reason) : string :=
  match r with
  | EmptyQuery => "empty query"
  | QueryTooLong => "query too long (maximum 10000 characters)"
  | NotReadOnly => "Only SELECT or WITH queries are allowed"
  | ForbiddenCommand cmd => "command not allowed: " +:+ cmd
  | TransactionCommand cmd => "Transaction commands are not allowed: " +:+ cmd
  | AdministrativeCommand cmd => "administrative command not allowed: " +:+ cmd
  | SecurityCommand cmd => "security command not allowed: " +:+ cmd
  | ForbiddenFunction fn => "dangerous function not permitted: " +:+ fn
  | MultipleStatements => "multiple commands are not allowed"
  | StackedStatements => "Multiple commands are not allowed"
  | SelectInto => "SELECT INTO is not allowed"
  | TooManyUnions => "too many UNION clauses (maximum 5)"
  | SuspiciousControlChar => "suspicious control character detected"
  | ExcessiveEncoding => "excessive use of hexadecimal encoding"
  | ExcessiveObfuscation => "excessive use of CHAR/NCHAR (possible obfuscation)"
  | TimingFunction fn => "time function not allowed: " +:+ fn
  | TooManySubqueries => "too many subqueries (maximum 10)"
  | UnbalancedParentheses => "unbalanced parentheses"
  | ExcessiveNesting => "parenthesis depth too large (maximum 20)"
  end.

(** Go's [error]: [nil] or an error value. *)
Definition error : Type := option reason.
Abbreviation Accepted := (@None reason).
Abbreviation Rejected := (@Some reason).

Section Normalizer.
Variable unicodeUpper : string -> string.

(** Normalizes SQL by removing extra spaces and comments while maintaining
    structure. *)
Definition normalizeSQL (sql : string) : string :=
  (* Remove line comments *)
  let sql := ReplaceAllString reLineComments sql (Text " ") in
  (* Remove block comments *)
  let sql := ReplaceAllString reBlockComments sql (Text " ") in
  (* Normalize multiple spaces *)
  let sql := ReplaceAllString reMultipleSpaces sql (Text " ") in
  (* Remove spaces before/after parentheses and commas *)
  let sql := ReplaceAllString reParensAndCommas sql Group1 in
  TrimSpace (ToUpper unicodeUpper sql).

Definition NewSQLValidator (query : string) : SQLValidator :=
  {| query := query; normalized := normalizeSQL query |}.

End Normalizer.

(** Remove literal strings for command parsing *)
Definition removeStringLiterals (sql : string) : string :=
  let sql := ReplaceAllString reSingleQuotes sql (Text "''") in
  let sql := ReplaceAllString reDoubleQuotes sql (Text (dquote +:+ dquote)) in
  let sql := ReplaceAllString reSquareBrackets sql (Text "[]") in
  sql.

(** *** The keyword-pattern cache

    [keywordPatterns] is a package-level map from keyword to compiled
    pattern, created empty and filled by [containsKeyword].  The functions
    that reach it are written in the state monad [M] over its contents. *)

Abbreviation Cache := (gmap string Regexp).

Definition M (A : Type) : Type := Cache -> A * Cache.

#[global] Instance M_ret : MRet M := fun A x keywordPatterns => (x, keywordPatterns).
#[global] Instance M_bind : MBind M := fun A B f m keywordPatterns =>
  let '(a, keywordPatterns') := m keywordPatterns in f a keywordPatterns'.

(** [make(map[string]*regexp.Regexp)] *)
Definition keywordPatterns0 : Cache := ∅.

(** The pattern that [regexp.MustCompile] builds from the source text
    backslash-b, keyword, backslash-b.  Every keyword the validator passes
    consists of capital letters and underscores, which stand for
    themselves in a pattern. *)
Definition compileKeyword (keyword : string) : Regexp :=
  Cat WordBoundary (Cat (Lit keyword) WordBoundary).

(** Checks if a keyword exists as a complete word (not part of another word) *)
Definition containsKeyword (sql keyword : string) : M bool :=
  fun keywordPatterns =>
    match keywordPatterns !! keyword with
    | Some pattern => (MatchString pattern sql, keywordPatterns)
    | None =>
        let pattern := compileKeyword keyword in
        (MatchString pattern sql, <[keyword := pattern]> keywordPatterns)
    end.

(** [for _, cmd := range cmds { if containsKeyword(sql, cmd) { return ... } }]:
    the first keyword of [cmds] found in [sql], if any. *)
Fixpoint firstKeyword (sql : string) (cmds : list string) : M (option string) :=
  match cmds with
  | [] => mret None
  | cmd :: cmds' =>
      found ← containsKeyword sql cmd;
      if found : bool then mret (Some cmd) else firstKeyword sql cmds'
  end.

(** The same with [strings.Contains]. *)
Fixpoint firstSubstring (sql : string) (cmds : list string) : option string :=
  match cmds with
  | [] => None
  | cmd :: cmds' => if Contains sql cmd then Some cmd else firstSubstring sql cmds'
  end.

(** [if err := step; err != nil { return err }] followed by [rest]. *)
Definition orReturn (step rest : M error) : M error :=
  err ← step;
  match err with
  | Some r => mret (Rejected r)
  | None => rest
  end.
Infix ";;;" := orReturn (at level 60, right associativity).

(** A denylist loop of [Validate]: the error built by [mk] from the first
    keyword found, or [nil]. *)
Definition denyKeywords (sql : string) (cmds : list string)
    (mk : string -> reason) : M error :=
  found ← firstKeyword sql cmds; mret (mk <$> found).

(** The same for a list matched with [strings.Contains]. *)
Definition denySubstrings (sql : string) (cmds : list string)
    (mk : string -> reason) : M error :=
  mret (mk <$> firstSubstring sql cmds).

(** [if b { return r }] *)
Definition rejectIf (b : bool) (r : reason) : M error :=
  mret (if b then Rejected r else Accepted).

(** Validates multiple statements: the loop over [v.query], at byte [i]
    with [rest] still to read.  (Ranging over a Go string yields runes; the
    loops of this file compare them with ASCII characters only, and a byte
    below 0x80 is always a rune of its own, so they are written over
    bytes.) *)
Fixpoint scanStatements (query rest : string) (i : Z)
    (inString escapeNext : bool) : error :=
  match rest with
  | EmptyString => Accepted
  | String char rest' =>
      if escapeNext then scanStatements query rest' (i + 1) inString false
      else if Ascii.eqb char "\" then
        scanStatements query rest' (i + 1) inString true
      else if Ascii.eqb char "'" then
        scanStatements query rest' (i + 1) (negb inString) false
      else if negb inString && Ascii.eqb char ";" then
        (* Check that it is not the last character (allowed at the end) *)
        if (i <? len query - 1)
           && negb (String.eqb (TrimSpace (sliceFrom query (Z.to_nat (i + 1)))) EmptyString)
        then Rejected MultipleStatements
        else scanStatements query rest' (i + 1) inString false
      else scanStatements query rest' (i + 1) inString false
  end.

Definition validateMultipleStatements (v : SQLValidator) : error :=
  scanStatements (query v) (query v) 0 false false.

(** Validates that there is no SELECT INTO statement. *)
Definition validateNoIntoClause (v : SQLValidator) (sql : string) : error :=
  if MatchString reSelectInto sql then Rejected SelectInto else Accepted.

(** validateUnionUsage validates UNION clause usage *)
Definition validateUnionUsage (v : SQLValidator) (sql : string) : error :=
  let unionCount := Count sql "UNION" in
  if unionCount >? MaxUnionCount then Rejected TooManyUnions else Accepted.

Definition suspicious (char : ascii) : bool :=
  (code char <? 32) && negb (isByte 10 char) && negb (isByte 13 char)
  && negb (isByte 9 char).

Fixpoint anyByte (p : ascii -> bool) (s : string) : bool :=
  match s with
  | EmptyString => false
  | String c t => p c || anyByte p t
  end.

(** Validates encoding and special characters *)
Definition validateEncoding (v : SQLValidator) : error :=
  (* Checking for suspicious control characters *)
  if anyByte suspicious (query v) then Rejected SuspiciousControlChar
  else
    (* Check for hexadecimal encoding attempts *)
    if Contains (normalized v) "0X"
       && (Z.of_nat (length (FindAllString reHexPattern (normalized v)))
           >? MaxHexEncodingCount)
    then Rejected ExcessiveEncoding
    else
      (* Check CHAR / NCHAR used to obfuscate commands *)
      if Z.of_nat (length (FindAllString reCharNCharPattern (normalized v)))
         >? MaxCharFunctionCount
      then Rejected ExcessiveObfuscation
      else Accepted.

Definition timingFunctions : list string :=
  ["WAITFOR"; "DELAY"; "SLEEP"; "BENCHMARK"].

(** Validates timing attack attempts. *)
Definition validateNoTimingAttacks (v : SQLValidator) (sql : string) : M error :=
  denyKeywords sql timingFunctions TimingFunction.

(** Validate parenthesis depth: the loop, then the two tests. *)
Fixpoint parenLoop (s : string) (depth maxDepth : Z) : Z * Z :=
  match s with
  | EmptyString => (depth, maxDepth)
  | String char t =>
      if Ascii.eqb char "(" then
        let depth := depth + 1 in
        parenLoop t depth (if depth >? maxDepth then depth else maxDepth)
      else if Ascii.eqb char ")" then parenLoop t (depth - 1) maxDepth
      else parenLoop t depth maxDepth
  end.

Definition validateParenthesesDepth (v : SQLValidator) : error :=
  let '(depth, maxDepth) := parenLoop (query v) 0 0 in
  if negb (depth =? 0) then Rejected UnbalancedParentheses
  else if maxDepth >? MaxParenthesesDepth then Rejected ExcessiveNesting
  else Accepted.

Definition dangerousDML : list string :=
  ["INSERT"; "UPDATE"; "DELETE"; "TRUNCATE"; "MERGE"].
Definition dangerousDDL : list string := ["DROP"; "CREATE"; "ALTER"; "RENAME"].
Definition dangerousExec : list string :=
  ["EXEC"; "EXECUTE"; "SP_EXECUTESQL"; "XP_CMDSHELL"].
Definition transactionCmds : list string :=
  ["BEGIN TRANSACTION"; "BEGIN TRAN"; "COMMIT"; "ROLLBACK"; "SAVE TRANSACTION"].
Definition backupCmds : list string := ["BACKUP"; "RESTORE"; "DUMP"].
Definition adminCmds : list string := ["SHUTDOWN"; "RECONFIGURE"; "DBCC"; "KILL"].
Definition securityCmds : list string := ["GRANT"; "REVOKE"; "DENY"].
Definition dangerousFunctions : list string :=
  ["XP_"; "SP_CONFIGURE"; "SP_ADDSRVROLEMEMBER"; "SP_ADDLOGIN";
   "OPENROWSET"; "OPENDATASOURCE"; "OPENQUERY"; "BULK INSERT"; "BCP"].

(** Verifies if the consultation is secure. *)
Definition Validate (v : SQLValidator) : M error :=
  (* 1. Check if it's not empty *)
  if String.eqb (TrimSpace (query v)) EmptyString then mret (Rejected EmptyQuery)
  (* 2. Check maximum size *)
  else if len (query v) >? MaxQueryLength then mret (Rejected QueryTooLong)
  (* 3. Check if it starts with SELECT or WITH *)
  else if negb (HasPrefix (normalized v) "SELECT")
          && negb (HasPrefix (normalized v) "WITH")
  then mret (Rejected NotReadOnly)
  else
    (* 4. Removing literals for command parsing *)
    let sqlWithoutLiterals := removeStringLiterals (normalized v) in
    (* 5. Dangerous DML commands *)
    denyKeywords sqlWithoutLiterals dangerousDML ForbiddenCommand ;;;
    (* 6. Dangerous DDL commands *)
    denyKeywords sqlWithoutLiterals dangerousDDL ForbiddenCommand ;;;
    (* 7. Execution commands *)
    denyKeywords sqlWithoutLiterals dangerousExec ForbiddenCommand ;;;
    (* 8. Transaction control commands *)
    denySubstrings sqlWithoutLiterals transactionCmds TransactionCommand ;;;
    (* 9. Backup/restore commands *)
    denyKeywords sqlWithoutLiterals backupCmds ForbiddenCommand ;;;
    (* 10. Administration commands *)
    denyKeywords sqlWithoutLiterals adminCmds AdministrativeCommand ;;;
    (* 11. Security commands *)
    denyKeywords sqlWithoutLiterals securityCmds SecurityCommand ;;;
    (* 12. Dangerous functions of the system *)
    denySubstrings sqlWithoutLiterals dangerousFunctions ForbiddenFunction ;;;
    (* 13. Detect multiple statements *)
    mret (validateMultipleStatements v) ;;;
    (* 14. Check INTO clause *)
    mret (validateNoIntoClause v sqlWithoutLiterals) ;;;
    (* 15. Check for attempts at stacked queries *)
    rejectIf (Count sqlWithoutLiterals ";" >? 0) StackedStatements ;;;
    (* 16. Check use of UNION for bypass *)
    mret (validateUnionUsage v sqlWithoutLiterals) ;;;
    (* 17. Check encoding and suspicious special characters *)
    mret (validateEncoding v) ;;;
    (* 18. Check for time-based blind SQL injection attempts *)
    validateNoTimingAttacks v sqlWithoutLiterals ;;;
    (* 19. Check number of subqueries *)
    rejectIf (Count sqlWithoutLiterals "SELECT" >? MaxSubqueryCount)
             TooManySubqueries ;;;
    (* 20. Check parenthesis depth *)
    mret (validateParenthesesDepth v).

(** ** Pagination helpers *)

Definition MaxPageSizeLarge : Z := 1000.






Section Pagination.
(** The conversion [int(f)] discards the fraction; when the value does not
    fit (too large, infinite, not a number) the result is some [int] that
    depends on the platform: [unrepresentable] stands for that choice. *)
Variable unrepresentable : spec_float -> Z.



End Pagination.

(** ** Notions used in the statements *)

(** Every keyword [containsKeyword] is called with. *)
Definition allKeywords : list string :=
  dangerousDML ++ dangerousDDL ++ dangerousExec ++ backupCmds ++ adminCmds
  ++ securityCmds ++ timingFunctions.

(** The cache holds, for a keyword, the pattern compiled from it. *)
Definition cacheOK (c : Cache) : Prop :=
  forall k p, c !! k = Some p -> p = compileKeyword k.

(** [c'] is [c] with entries added for keywords of the validator that [c]
    lacked, each the pattern compiled from its keyword. *)
Definition extends (c c' : Cache) : Prop :=
  c ⊆ c' /\
  forall k p, c' !! k = Some p ->
    c !! k = Some p \/ (k ∈ allKeywords /\ p = compileKeyword k /\ c !! k = None).

(** A computation that only extends the cache and whose result does not
    depend on which well-formed cache it starts from. *)
Definition tame {A : Type} (m : M A) : Prop :=
  (forall c, extends c (snd (m c))) /\
  exists a, forall c, cacheOK c -> fst (m c) = a.

(** The cache after the validators [vs] have been run in turn, from the
    empty map the package starts with. *)
Definition cacheAfter (vs : list SQLValidator) : Cache :=
  foldl (fun c v => snd (Validate v c)) keywordPatterns0 vs.

(** The number of bytes [b] in [s]. *)
Fixpoint countByte (b : ascii) (s : string) : Z :=
  match s with
  | EmptyString => 0
  | String c t => (if Ascii.eqb c b then 1 else 0) + countByte b t
  end.

(** Opening minus closing parentheses of [s]. *)
Definition depthOf (s : string) : Z := countByte "(" s - countByte ")" s.

(** What a byte adds to the depth. *)
Definition delta (c : ascii) : Z :=
  (if Ascii.eqb c "(" then 1 else 0) - (if Ascii.eqb c ")" then 1 else 0).

(** The prefixes of [s], the empty one first. *)
Fixpoint prefixes (s : string) : list string :=
  EmptyString ::
  match s with
  | EmptyString => []
  | String c t => map (String c) (prefixes t)
  end.

(** The largest depth reached while reading [s] from the left. *)
Definition maxRunningDepth (s : string) : Z :=
  foldr Z.max 0 (map depthOf (prefixes s)).

(** The number of matches of the hexadecimal pattern in [s]. *)
Definition hexCount (s : string) : Z :=
  Z.of_nat (length (FindAllString reHexPattern s)).

(** [n] copies of the byte [c]. *)
Fixpoint replicate (n : nat) (c : ascii) : string :=
  match n with
  | O => EmptyString
  | S n' => String c (replicate n' c)
  end.

(** A line feed. *)
Definition LF : string := String "010" EmptyString.

(** [SELECT] followed by the number 1 inside [n] nested parentheses. *)
Definition nested (n : nat) : string :=
  "SELECT " +:+ replicate n "(" +:+ "1" +:+ replicate n ")".

(** A query of 10001 spaces, and one of 10001 letters. *)
Definition blankQuery : string := replicate (Z.to_nat 10001) " ".
Definition longQuery : string := replicate (Z.to_nat 10001) "x".

(** ** The cache discipline *)

Lemma extends_refl c : extends c c.
Proof. split; [done | auto]. Qed.

Lemma extends_trans c1 c2 c3 : extends c1 c2 -> extends c2 c3 -> extends c1 c3.
Proof.
  intros [S12 N12] [S23 N23]. split; [by etrans|].
  intros k p H3. destruct (N23 k p H3) as [H2 | (Hk & Hp & H2)].
  - auto.
  - right. repeat split; try done.
    destruct (c1 !! k) as [q|] eqn:E; [|done].
    eapply lookup_weaken in E; [|exact S12]. congruence.
Qed.

Lemma extends_ok c c' : cacheOK c -> extends c c' -> cacheOK c'.
Proof.
  intros Hok [_ N] k p H. destruct (N k p H) as [H' | (_ & -> & _)]; eauto.
Qed.

Lemma extends_full c c' :
  extends c c' -> (forall k, k ∈ allKeywords -> is_Some (c !! k)) -> c' = c.
Proof.
  intros [S N] Hall. apply map_eq. intros k.
  destruct (c' !! k) as [p|] eqn:E.
  - destruct (N k p E) as [H | (Hk & _ & Hn)]; [done|].
    destruct (Hall k Hk) as [q Hq]. congruence.
  - destruct (c !! k) as [q|] eqn:E'; [|done].
    eapply lookup_weaken in E'; [|exact S]. congruence.
Qed.

Lemma tame_ret {A} (a : A) : tame (mret a).
Proof. split; [intros c; apply extends_refl | by exists a]. Qed.

Lemma tame_bind {A B} (m : M A) (f : A -> M B) :
  tame m -> (forall a, tame (f a)) -> tame (m ≫= f).
Proof.
  intros [Em [a Ha]] Hf. split.
  - intros c. unfold mbind, M_bind. specialize (Em c).
    destruct (m c) as [x c1]. simpl in *.
    eapply extends_trans; [exact Em | apply Hf].
  - destruct (Hf a) as [_ [b Hb]]. exists b. intros c Hc.
    unfold mbind, M_bind. specialize (Ha c Hc). specialize (Em c).
    destruct (m c) as [x c1]. simpl in *. subst x.
    apply Hb. eapply extends_ok; eauto.
Qed.

Lemma tame_containsKeyword sql k :
  k ∈ allKeywords -> tame (containsKeyword sql k).
Proof.
  intros Hk. split.
  - intros c. unfold containsKeyword.
    destruct (c !! k) as [p|] eqn:E; simpl; [apply extends_refl|].
    split; [by apply insert_subseteq|].
    intros k' p' H. destruct (decide (k = k')) as [<- | Hne].
    + rewrite lookup_insert_eq in H. right. by simplify_eq.
    + rewrite lookup_insert_ne in H by done. auto.
  - exists (MatchString (compileKeyword k) sql). intros c Hc.
    unfold containsKeyword. destruct (c !! k) as [p|] eqn:E; simpl; [|done].
    by rewrite (Hc k p E).
Qed.

Lemma tame_firstKeyword sql cmds :
  Forall (fun k => k ∈ allKeywords) cmds -> tame (firstKeyword sql cmds).
Proof.
  induction 1 as [|k cmds Hk _ IH]; simpl; [apply tame_ret|].
  apply tame_bind; [by apply tame_containsKeyword|].
  intros [|]; [apply tame_ret | exact IH].
Qed.

Lemma tame_denyKeywords sql cmds mk :
  Forall (fun k => k ∈ allKeywords) cmds -> tame (denyKeywords sql cmds mk).
Proof.
  intros H. apply tame_bind; [by apply tame_firstKeyword|].
  intros a. apply tame_ret.
Qed.

Lemma tame_orReturn (step rest : M error) :
  tame step -> tame rest -> tame (step ;;; rest).
Proof.
  intros Hs Hr. apply tame_bind; [done|]. intros [r|]; [apply tame_ret | done].
Qed.

Lemma keywords_known :
  Forall (fun cmds => Forall (fun k => k ∈ allKeywords) cmds)
    [dangerousDML; dangerousDDL; dangerousExec; backupCmds; adminCmds;
     securityCmds; timingFunctions].
Proof.
  repeat (apply Forall_cons; split); try apply Forall_nil;
    unfold allKeywords; set_solver.
Qed.

Lemma tame_Validate v : tame (Validate v).
Proof.
  pose proof keywords_known as K.
  repeat (apply Forall_cons in K as [? K]).
  unfold Validate, validateNoTimingAttacks, denySubstrings, rejectIf.
  destruct (String.eqb _ _); [apply tame_ret|].
  destruct (_ >? _); [apply tame_ret|].
  destruct (_ && _); [apply tame_ret|].
  repeat (apply tame_orReturn;
          [first [apply tame_ret | by apply tame_denyKeywords] |]).
  apply tame_ret.
Qed.

Lemma cacheAfter_extends vs : extends keywordPatterns0 (cacheAfter vs).
Proof.
  unfold cacheAfter. generalize keywordPatterns0 as c0.
  induction vs as [|v vs IH]; intros c0; simpl; [apply extends_refl|].
  eapply extends_trans; [apply (proj1 (tame_Validate v)) | apply IH].
Qed.

Lemma cacheAfter_ok vs : cacheOK (cacheAfter vs).
Proof.
  eapply extends_ok; [|apply cacheAfter_extends].
  intros k p H. unfold keywordPatterns0 in H. by rewrite lookup_empty in H.
Qed.

(** The outcome in a cache reached by earlier validations is the outcome
    in the empty cache. *)
Lemma Validate_from_empty v vs :
  fst (Validate v (cacheAfter vs)) = fst (Validate v keywordPatterns0).
Proof.
  destruct (tame_Validate v) as [_ [a Ha]].
  rewrite (Ha _ (cacheAfter_ok vs)). symmetry. apply (Ha _ (cacheAfter_ok [])).
Qed.

(** ** The validator on the queries of the specification *)

(** Evaluate [Validate] on a given query, from any reachable cache. *)
Ltac evaluate := intros; rewrite ?Validate_from_empty; by vm_compute.

Example plain_select_accepted U vs :
  fst (Validate (NewSQLValidator U "SELECT 1") (cacheAfter vs)) = Accepted.
Proof. evaluate. Qed.

Example stacked_query_rejected U vs :
  fst (Validate (NewSQLValidator U "SELECT 1; DROP TABLE x") (cacheAfter vs))
  = Rejected (ForbiddenCommand "DROP").
Proof. evaluate. Qed.

Example whole_word_match U vs :
  fst (Validate (NewSQLValidator U "SELECT a FROM dropdown") (cacheAfter vs))
  = Accepted.
Proof. evaluate. Qed.

Example timing_probe_rejected U vs :
  fst (Validate (NewSQLValidator U "SELECT 1 WHERE 1=1 AND WAITFOR DELAY '0:0:5'")
         (cacheAfter vs))
  = Rejected (TimingFunction "WAITFOR").
Proof. evaluate. Qed.

Example unbalanced_rejected U vs :
  fst (Validate (NewSQLValidator U "SELECT * FROM t WHERE (a=1") (cacheAfter vs))
  = Rejected UnbalancedParentheses.
Proof. evaluate. Qed.

Example union_flood_rejected U vs :
  fst (Validate
         (NewSQLValidator U
            ("SELECT 1 UNION SELECT 2 UNION SELECT 3 UNION SELECT 4 "
             +:+ "UNION SELECT 5 UNION SELECT 6 UNION SELECT 7"))
         (cacheAfter vs))
  = Rejected TooManyUnions.
Proof. evaluate. Qed.

Example comment_hides_nothing U vs :
  fst (Validate (NewSQLValidator U "SELECT 1 -- drop it") (cacheAfter vs))
  = Accepted.
Proof. evaluate. Qed.

(** C1 (the code departs from the claim): the query [SELECT 1;] passes the
    statement scanner, which allows a semicolon at the end, and is then
    rejected by the semicolon count of step 15 with the message
    [Multiple commands are not allowed], in every cache state reached by
    earlier validations. *)
Theorem trailing_semicolon_rejected (U : string -> string)
    (vs : list SQLValidator) :
  let v := NewSQLValidator U "SELECT 1;" in
  validateMultipleStatements v = Accepted /\
  fst (Validate v (cacheAfter vs)) = Rejected StackedStatements.
Proof.
  split; [by vm_compute|]. rewrite Validate_from_empty. by vm_compute.
Qed.

(** C2 (the code departs from the claim): a block comment that spans a
    line break is not removed by the first normalization but by the second,
    once the line break has become a space, so normalizing twice differs
    from normalizing once. *)
Theorem normalize_twice_differs (U : string -> string) :
  let q := "/*" +:+ LF +:+ "*/" in
  normalizeSQL U q = "/* */" /\
  normalizeSQL U (normalizeSQL U q) = EmptyString /\
  normalizeSQL U (normalizeSQL U q) <> normalizeSQL U q.
Proof. by vm_compute. Qed.

(** C4: the query with [DROP TABLE] inside a single-quoted literal is
    accepted, in every cache state reached by earlier validations; the
    keyword is present in the normalized text and absent from the masked
    text that the denylist rules read. *)
Theorem literal_safety (U : string -> string) (vs : list SQLValidator) :
  let v := NewSQLValidator U "SELECT * FROM t WHERE name = 'DROP TABLE'" in
  MatchString (compileKeyword "DROP") (normalized v) = true /\
  MatchString (compileKeyword "DROP") (removeStringLiterals (normalized v)) = false /\
  fst (Validate v (cacheAfter vs)) = Accepted.
Proof.
  repeat split; [by vm_compute..|]. rewrite Validate_from_empty. by vm_compute.
Qed.

Lemma Validate_blank v c :
  TrimSpace (query v) = EmptyString -> Validate v c = (Rejected EmptyQuery, c).
Proof. intros H. unfold Validate. by rewrite H. Qed.

(** C3, as stated, fails: the empty query has a normalized form that starts
    with neither [SELECT] nor [WITH], and it is rejected as empty. *)
Lemma not_read_only_counterexample :
  let v := {| query := EmptyString; normalized := EmptyString |} in
  (forall U, NewSQLValidator U EmptyString = v) /\
  HasPrefix (normalized v) "SELECT" = false /\
  HasPrefix (normalized v) "WITH" = false /\
  (forall c, fst (Validate v c) = Rejected EmptyQuery).
Proof. by vm_compute. Qed.

(** C3, amended: a query that is not blank, has at most [MaxQueryLength]
    bytes and whose normalized form starts with neither [SELECT] nor [WITH]
    is rejected with [Only SELECT or WITH queries are allowed], and the
    cache is left as it was. *)
Theorem not_read_only (U : string -> string) (q : string) (c : Cache) :
  TrimSpace q <> EmptyString ->
  len q <= MaxQueryLength ->
  HasPrefix (normalizeSQL U q) "SELECT" = false ->
  HasPrefix (normalizeSQL U q) "WITH" = false ->
  Validate (NewSQLValidator U q) c = (Rejected NotReadOnly, c).
Proof.
  intros Hblank Hlen Hs Hw. unfold Validate. simpl.
  apply String.eqb_neq in Hblank. rewrite Hblank.
  assert ((len q >? MaxQueryLength) = false) as -> by lia.
  by rewrite Hs, Hw.
Qed.

Lemma not_read_only_witness :
  Validate (NewSQLValidator (fun s => s) "DROP TABLE x") keywordPatterns0
  = (Rejected NotReadOnly, keywordPatterns0).
Proof. apply not_read_only; by vm_compute. Defined.

(** C7, as stated, fails: a query of 10001 spaces is longer than
    [MaxQueryLength] and is rejected as empty, the emptiness test coming
    first. *)
Lemma query_too_long_counterexample :
  len blankQuery = 10001 /\
  (forall U c, fst (Validate (NewSQLValidator U blankQuery) c) = Rejected EmptyQuery).
Proof.
  split; [by vm_compute|]. intros U c. rewrite Validate_blank; [done|by vm_compute].
Qed.

(** C7, amended: a query longer than [MaxQueryLength] bytes that is not
    blank is rejected with [query too long], and the cache is left as it
    was. *)
Theorem query_too_long (U : string -> string) (q : string) (c : Cache) :
  TrimSpace q <> EmptyString ->
  MaxQueryLength < len q ->
  Validate (NewSQLValidator U q) c = (Rejected QueryTooLong, c).
Proof.
  intros Hblank Hlen. unfold Validate. simpl.
  apply String.eqb_neq in Hblank. rewrite Hblank.
  by assert ((len q >? MaxQueryLength) = true) as -> by lia.
Qed.

Lemma query_too_long_witness :
  Validate (NewSQLValidator (fun s => s) longQuery) keywordPatterns0
  = (Rejected QueryTooLong, keywordPatterns0).
Proof. apply query_too_long; by vm_compute. Defined.

(** ** The cache across validations *)

(** C10: the outcome of [Validate] for a query is the same after any two
    histories of earlier validations, that is, whatever the keyword cache
    holds when the call is made. *)
Theorem Validate_deterministic (U : string -> string) (q : string)
    (vs1 vs2 : list SQLValidator) :
  fst (Validate (NewSQLValidator U q) (cacheAfter vs1))
  = fst (Validate (NewSQLValidator U q) (cacheAfter vs2)).
Proof. by rewrite !Validate_from_empty. Qed.

(** C6, as stated, fails: validating [SELECT 1] in the empty cache the
    package starts with leaves a cache that holds a pattern for [INSERT]. *)
Lemma cache_mutation_counterexample :
  let v := {| query := "SELECT 1"; normalized := "SELECT 1" |} in
  (forall U, NewSQLValidator U "SELECT 1" = v) /\
  keywordPatterns0 !! "INSERT" = None /\
  snd (Validate v keywordPatterns0) !! "INSERT" = Some (compileKeyword "INSERT") /\
  snd (Validate v keywordPatterns0) <> keywordPatterns0.
Proof.
  assert (snd (Validate {| query := "SELECT 1"; normalized := "SELECT 1" |}
                 keywordPatterns0) !! "INSERT" = Some (compileKeyword "INSERT")) as H
    by (by vm_compute).
  split; [by vm_compute|]. split; [by vm_compute|]. split; [exact H|].
  intros E. rewrite E in H. discriminate H.
Qed.

(** C6, amended: [Validate] never removes or replaces an entry of the
    keyword cache; an entry it adds belongs to a keyword of the validator
    that had none and is the pattern compiled from that keyword (the cache
    is filled on first use); and once every keyword has its entry,
    [Validate] leaves the cache as it was. *)
Theorem cache_only_extended (v : SQLValidator) (c : Cache) :
  let c' := snd (Validate v c) in
  c ⊆ c' /\
  (forall k p, c' !! k = Some p ->
     c !! k = Some p \/ (k ∈ allKeywords /\ p = compileKeyword k /\ c !! k = None)) /\
  ((forall k, k ∈ allKeywords -> is_Some (c !! k)) -> c' = c).
Proof.
  destruct (tame_Validate v) as [E _]. specialize (E c).
  split; [apply E|]. split; [apply E|]. by apply extends_full.
Qed.

(** ** The parenthesis analysis *)

Lemma foldr_max_nonneg (l : list Z) : 0 <= foldr Z.max 0 l.
Proof.
  induction l as [|x l IH]; simpl; [done|].
  revert IH. generalize (foldr Z.max 0 l). lia.
Qed.

(** Replace each maximum of a list by a variable known to be non-negative. *)
Ltac hide_folds :=
  change (depthOf EmptyString) with 0 in *;
  repeat match goal with
         | |- context [foldr Z.max 0 ?l] =>
             let m := fresh "m" in
             pose proof (foldr_max_nonneg l);
             set (m := foldr Z.max 0 l) in *; clearbody m
         end.

Lemma depthOf_cons c s : depthOf (String c s) = delta c + depthOf s.
Proof. unfold depthOf, delta. simpl. lia. Qed.

Lemma max_shift (d : Z) (l : list Z) :
  Z.max d (foldr Z.max 0 (map (Z.add d) l)) = Z.max 0 (d + foldr Z.max 0 l).
Proof. induction l as [|x l IH]; simpl; hide_folds; lia. Qed.

Lemma maxRunningDepth_nonneg s : 0 <= maxRunningDepth s.
Proof. unfold maxRunningDepth. destruct s; simpl; hide_folds; lia. Qed.

Lemma maxRunningDepth_cons c s :
  maxRunningDepth (String c s) = Z.max 0 (delta c + maxRunningDepth s).
Proof.
  unfold maxRunningDepth. simpl. rewrite map_map.
  rewrite (map_ext _ (fun p => delta c + depthOf p)) by (intros; apply depthOf_cons).
  rewrite <- (map_map depthOf (Z.add (delta c))).
  rewrite <- max_shift.
  destruct s; simpl; hide_folds; lia.
Qed.

(** The loop computes the final depth and the largest running depth. *)
Lemma parenLoop_spec s : forall depth maxDepth,
  depth <= maxDepth ->
  parenLoop s depth maxDepth
  = (depth + depthOf s, Z.max maxDepth (depth + maxRunningDepth s)).
Proof.
  induction s as [|c s IH]; intros d m Hdm.
  - simpl. f_equal; [unfold depthOf; simpl; lia|].
    unfold maxRunningDepth. simpl. hide_folds. lia.
  - simpl. rewrite depthOf_cons, maxRunningDepth_cons.
    pose proof (maxRunningDepth_nonneg s) as Hn. unfold delta.
    destruct (Ascii.eqb c "(") eqn:Eo.
    + apply Ascii.eqb_eq in Eo. subst c. simpl.
      rewrite IH by (destruct (d + 1 >? m) eqn:E; lia).
      f_equal; destruct (d + 1 >? m) eqn:E; lia.
    + destruct (Ascii.eqb c ")") eqn:Ec; rewrite IH by lia; f_equal; lia.
Qed.

(** C8: the analysis reads the raw query, literals included.  It answers
    [unbalanced parentheses] exactly when the numbers of opening and of
    closing parentheses differ, and [parenthesis depth too large] exactly
    when they agree and the largest running depth exceeds 20.  A query with
    21 nested parentheses is rejected for its depth, the same query with 20
    is accepted, and a parenthesis inside a literal counts. *)
Theorem parentheses_analysis (v : SQLValidator) :
  (validateParenthesesDepth v = Rejected UnbalancedParentheses
   <-> countByte "(" (query v) <> countByte ")" (query v)) /\
  (validateParenthesesDepth v = Rejected ExcessiveNesting
   <-> countByte "(" (query v) = countByte ")" (query v)
       /\ MaxParenthesesDepth < maxRunningDepth (query v)) /\
  (forall U vs,
     fst (Validate (NewSQLValidator U (nested 21)) (cacheAfter vs))
     = Rejected ExcessiveNesting) /\
  (forall U vs,
     fst (Validate (NewSQLValidator U (nested 20)) (cacheAfter vs)) = Accepted) /\
  (forall U vs,
     fst (Validate (NewSQLValidator U "SELECT '('") (cacheAfter vs))
     = Rejected UnbalancedParentheses).
Proof.
  assert (validateParenthesesDepth v =
          if negb (depthOf (query v) =? 0) then Rejected UnbalancedParentheses
          else if maxRunningDepth (query v) >? MaxParenthesesDepth
               then Rejected ExcessiveNesting else Accepted) as ->.
  { unfold validateParenthesesDepth. rewrite parenLoop_spec by lia.
    pose proof (maxRunningDepth_nonneg (query v)).
    by replace (Z.max 0 (0 + maxRunningDepth (query v)))
      with (maxRunningDepth (query v)) by lia. }
  unfold depthOf.
  split; [|split; [|split; [|split]]].
  - destruct (_ =? 0) eqn:E; simpl.
    + split; [by destruct (_ >? _) | lia].
    + split; [lia | done].
  - destruct (_ =? 0) eqn:E; simpl.
    + destruct (_ >? _) eqn:E'; split; first [done | lia | intros [? ?]; lia].
    + split; [done | lia].
  - intros U vs. rewrite Validate_from_empty. by vm_compute.
  - intros U vs. rewrite Validate_from_empty. by vm_compute.
  - intros U vs. rewrite Validate_from_empty. by vm_compute.
Qed.

(** ** The encoding rule *)

Lemma lit_prefix {R} l : forall s prev (k : option ascii -> string -> option R) r,
  lit l s prev k = Some r -> HasPrefix s l = true.
Proof.
  induction l as [|c l IH]; intros s prev k r H; [by destruct s|].
  destruct s as [|d s]; simpl in *; [done|].
  destruct (Ascii.eqb c d); [|done]. simpl. eauto.
Qed.

Lemma reHexPattern_prefix prev s x :
  matchAt reHexPattern prev s = Some x -> HasPrefix s "0X" = true.
Proof. intros H. eapply (lit_prefix "0X" s prev). exact H. Qed.

Lemma Contains_cons c s l : Contains s l = true -> Contains (String c s) l = true.
Proof. intros H. cbn [Contains]. rewrite H. apply orb_true_r. Qed.

Lemma Contains_here s l : HasPrefix s l = true -> Contains s l = true.
Proof. intros H. destruct s; cbn [Contains]; by rewrite H. Qed.

(** Where a pattern that starts with the text [l] has a match, [l] occurs. *)
Lemma scan_hit_contains r l :
  (forall prev s x, matchAt r prev s = Some x -> HasPrefix s l = true) ->
  forall s prev skip adj,
    omap wholeOf (scan r prev s skip adj) <> [] -> Contains s l = true.
Proof.
  intros Hr. induction s as [|c s IH]; intros prev skip adj H.
  - destruct skip; simpl in H; [|done].
    destruct (matchAt r prev EmptyString) as [x|] eqn:E; [|done].
    apply Contains_here. eauto.
  - destruct skip as [|n]; simpl in H.
    + destruct (matchAt r prev (String c s)) as [[[|n] g]|] eqn:E.
      * apply Contains_here. eauto.
      * apply Contains_here. eauto.
      * apply Contains_cons. simpl in H. eauto.
    + apply Contains_cons. eauto.
Qed.

Lemma hexCount_contains s : 0 < hexCount s -> Contains s "0X" = true.
Proof.
  unfold hexCount, FindAllString, pieces. intros H.
  eapply scan_hit_contains; [apply reHexPattern_prefix|].
  intros E. rewrite E in H. simpl in H. lia.
Qed.

Lemma validateEncoding_hex v :
  validateEncoding v = Rejected ExcessiveEncoding
  <-> anyByte suspicious (query v) = false
      /\ MaxHexEncodingCount < hexCount (normalized v).
Proof.
  unfold validateEncoding. fold (hexCount (normalized v)).
  destruct (anyByte suspicious (query v)).
  { split; [intros H | intros [H _]]; discriminate H. }
  destruct (hexCount (normalized v) >? MaxHexEncodingCount) eqn:E.
  - assert (0 < hexCount (normalized v)) as Hpos
      by (unfold MaxHexEncodingCount in E; lia).
    rewrite (hexCount_contains _ Hpos). simpl.
    split; [intros _; split; [done | lia] | done].
  - rewrite andb_false_r. simpl.
    split; [destruct (Z.of_nat _ >? _); intros H; discriminate H | intros [_ ?]; lia].
Qed.

(** What a step of [Validate] can answer. *)
Lemma orReturn_fst (step rest : M error) c r :
  fst ((step ;;; rest) c) = Rejected r ->
  fst (step c) = Rejected r \/ fst (rest (snd (step c))) = Rejected r.
Proof.
  unfold orReturn, mbind, M_bind. destruct (step c) as [[r'|] c']; simpl; auto.
Qed.

Lemma denyKeywords_fst sql cmds mk c r :
  fst (denyKeywords sql cmds mk c) = Rejected r -> exists k, r = mk k.
Proof.
  unfold denyKeywords, mbind, M_bind.
  destruct (firstKeyword sql cmds c) as [[k|] c']; simpl; [|done].
  intros [= <-]. eauto.
Qed.

Lemma denySubstrings_fst sql cmds mk c r :
  fst (denySubstrings sql cmds mk c) = Rejected r -> exists k, r = mk k.
Proof.
  unfold denySubstrings. simpl. destruct (firstSubstring sql cmds); simpl; [|done].
  intros [= <-]. eauto.
Qed.

Lemma scanStatements_reason q rest : forall i inString escapeNext r,
  scanStatements q rest i inString escapeNext = Rejected r -> r = MultipleStatements.
Proof.
  induction rest as [|c rest IH]; intros i a b r; simpl; [done|].
  repeat case_match; eauto. by intros [= <-].
Qed.

Lemma Validate_hex v c :
  fst (Validate v c) = Rejected ExcessiveEncoding ->
  validateEncoding v = Rejected ExcessiveEncoding.
Proof.
  unfold Validate, validateNoTimingAttacks.
  destruct (String.eqb _ _); [intros HE; discriminate HE|].
  destruct (_ >? _); [intros HE; discriminate HE|].
  destruct (_ && _); [intros HE; discriminate HE|].
  intros HE.
  repeat (apply orReturn_fst in HE as [HE | HE];
    [first [ exact HE
           | by apply denyKeywords_fst in HE as [? ?]
           | by apply denySubstrings_fst in HE as [? ?]
           | by apply scanStatements_reason in HE
           | by (unfold rejectIf in HE; simpl in HE; case_match)
           | by (unfold validateNoIntoClause, validateUnionUsage in HE;
                 simpl in HE; case_match) ] |]).
  unfold validateParenthesesDepth in HE. simpl in HE.
  destruct (parenLoop _ _ _). by repeat case_match.
Qed.

(** C5, as stated, fails: the query below has its four hexadecimal
    sequences inside a single-quoted literal, none of them is left in the
    masked text, the rules after the encoding rule have nothing to reject,
    and the query is rejected for excessive hexadecimal encoding. *)
Lemma hex_in_literal_counterexample :
  let v := {| query := "SELECT '0x1 0x2 0x3 0x4'";
              normalized := "SELECT '0X1 0X2 0X3 0X4'" |} in
  (forall U, NewSQLValidator U "SELECT '0x1 0x2 0x3 0x4'" = v) /\
  hexCount (removeStringLiterals (normalized v)) = 0 /\
  hexCount (normalized v) = 4 /\
  fst (validateNoTimingAttacks v (removeStringLiterals (normalized v)) keywordPatterns0)
    = Accepted /\
  Count (removeStringLiterals (normalized v)) "SELECT" = 1 /\
  validateParenthesesDepth v = Accepted /\
  (forall vs, fst (Validate v (cacheAfter vs)) = Rejected ExcessiveEncoding).
Proof.
  cbv zeta. repeat (split; [by vm_compute|]).
  intros vs. rewrite Validate_from_empty. by vm_compute.
Qed.

(** C5, amended: the hexadecimal rule counts the matches of the pattern in
    the normalized text, literals included.  [validateEncoding] answers
    [excessive use of hexadecimal encoding] exactly when the raw query has
    no suspicious control character and the normalized text has more than 3
    matches, and [Validate] gives that answer only then. *)
Theorem hex_rule_reads_normalized (v : SQLValidator) :
  (validateEncoding v = Rejected ExcessiveEncoding
   <-> anyByte suspicious (query v) = false
       /\ MaxHexEncodingCount < hexCount (normalized v)) /\
  (forall c, fst (Validate v c) = Rejected ExcessiveEncoding ->
     anyByte suspicious (query v) = false
     /\ MaxHexEncodingCount < hexCount (normalized v)).
Proof.
  split; [apply validateEncoding_hex|].
  intros c H. by apply validateEncoding_hex, (Validate_hex v c).
Qed.

(** ** Pagination *)








